(** * HTTP management layer of notification rules

    A shallow embedding of [http/notification_rule.go]: the request decoders,
    the response composer, the label attachment loop, the per-verb handlers,
    the route wiring and the remote store adapter.

    The handlers talk to collaborators that live outside the file (rule
    store, task service, label service, endpoint service, the request's
    authorizer).  A handler is therefore a program over the collaborator
    calls it may issue; running it against any behaviour of the
    collaborators yields its outcome and the trace of calls it made. *)

From stdpp Require Import base list strings numbers option pretty.

Set Default Proof Using "Type".
Open Scope string_scope.
Open Scope list_scope.
Open Scope stdpp_scope.

(** ** Go values *)

(** [influxdb.ID] is a [uint64]; the file only passes IDs around. *)
Definition ID := N.

(** The error codes of the platform that this file or its specification
    names.  [ENone] is the empty code of a zero [influxdb.Error]. *)
Inductive ErrCode :=
| ENone | EInvalid | EInternal | ENotFound | EUnauthorized.

(** A Go [error]: a [*influxdb.Error] with its four fields, or an error of
    some other type (encoding/json, io) known by its text. *)
#[warnings="-register-all"]
Inductive Error :=
| PlatformError (Code : ErrCode) (Msg Op : string) (Err : option Error)
| ForeignError (text : string).

Definition Code (e : Error) : ErrCode :=
  match e with
  | PlatformError c _ _ _ => c
  | ForeignError _ => ENone
  end.

(** A call returning [(T, error)]: the value when the error is nil, the
    error otherwise (with an error Go returns the zero value: no rule, no
    labels).  A call returning only [error] is a [result unit]. *)
Inductive result (A : Type) :=
| Ok (a : A)
| Failed (e : Error).
Arguments Ok {A} a.
Arguments Failed {A} e.

Definition is_ok {A} (r : result A) : bool :=
  match r with Ok _ => true | Failed _ => false end.

Definition ok_value {A} (r : result A) : option A :=
  match r with Ok a => Some a | Failed _ => None end.

(** ** Programs over collaborator calls

    [Vis c k] issues the call [c] and continues with [k] on its answer;
    [Panic] is a Go run-time panic (here: a nil pointer dereference). *)
Section Programs.
Context {E : Type -> Type}.

Inductive Prog (A : Type) : Type :=
| Ret (a : A)
| Panic (why : string)
| Vis {X : Type} (c : E X) (k : X -> Prog A).
Global Arguments Ret {A} a.
Global Arguments Panic {A} why.
Global Arguments Vis {A X} c k.

Fixpoint bind {A B} (m : Prog A) (f : A -> Prog B) : Prog B :=
  match m with
  | Ret a => f a
  | Panic why => Panic why
  | Vis c k => Vis c (fun x => bind (k x) f)
  end.

Definition invoke {X} (c : E X) : Prog X := Vis c Ret.

(** [for _, x := range xs { acc = body acc x }]. *)
Fixpoint range {A St} (body : St -> A -> Prog St) (xs : list A) (acc : St)
  : Prog St :=
  match xs with
  | [] => Ret acc
  | x :: xs' => bind (body acc x) (range body xs')
  end.

(** One call of a run together with the answer it got. *)
Inductive event :=
| Ev {X : Type} (c : E X) (x : X).

Inductive outcome (A : Type) :=
| Done (a : A)
| Panicked (why : string).
Global Arguments Done {A} a.
Global Arguments Panicked {A} why.

(** The collaborators: any state, any answer to any call. *)
Definition world (S : Type) := forall X, E X -> S -> X * S.

Fixpoint run {S A} (w : world S) (m : Prog A) (s : S)
  : outcome A * list event * S :=
  match m with
  | Ret a => (Done a, [], s)
  | Panic why => (Panicked why, [], s)
  | Vis c k =>
      let '(x, s1) := w _ c s in
      let '(o, tr, s2) := run w (k x) s1 in
      (o, Ev c x :: tr, s2)
  end.

Definition result_of {S A} (r : outcome A * list event * S) : outcome A := r.1.1.
Definition trace_of {S A} (r : outcome A * list event * S) : list event := r.1.2.

End Programs.
Global Arguments Prog : clear implicits.
Global Arguments event : clear implicits.
Global Arguments world : clear implicits.

Notation "'let*' x ':=' m 'in' k" := (bind m (fun x => k))
  (at level 10, x name, m at level 200, k at level 200).

(** [x, err := r; if err != nil { h }; k]. *)
Notation "'let?' x ':=' r 'orelse' err '=>' h 'in' k" :=
  (match r with Ok x => k | Failed err => h end)
  (at level 10, x name, err name, r at level 200, h at level 200,
   k at level 200).

(** ** The data model

    Types of package [influxdb] as this file uses them: the fields it reads
    or writes, under the names it uses. *)

(** The resource-type tags the file names; [NoResourceType] is the zero
    value of the Go string type. *)
Inductive ResourceType :=
| NoResourceType
| NotificationRuleResourceType
| TelegrafsResourceType.

Inductive UserType := Member | Owner.

Global Instance ResourceType_eq_dec : EqDecision ResourceType.
Proof. solve_decision. Defined.

Definition Time := Z.
Definition Status := string.

Record Label := { Label_ID : ID; Label_Name : string }.

Record LabelMapping := {
  lm_LabelID : ID;
  lm_ResourceID : ID;
  lm_ResourceType : ResourceType }.

Record LabelMappingFilter := {
  lmf_ResourceID : ID;
  lmf_ResourceType : ResourceType }.

(** The run-status snapshot of [influxdb.Task] read by the composer. *)
Record Task := {
  Task_Status : string;
  Task_LatestCompleted : Time;
  Task_LatestScheduled : Time;
  Task_LastRunStatus : string;
  Task_LastRunError : string }.

Record UserResourceMappingFilter := {
  urm_ResourceID : ID;
  urm_ResourceType : ResourceType;
  urm_UserID : ID }.

(** [MemberBackend] and [LabelBackend]: the fields that say which resource
    the member, owner and label sub-routes act on. *)
Record MemberBackend := {
  mb_ResourceType : ResourceType;
  mb_UserType : UserType }.

Record LabelBackend := { lb_ResourceType : ResourceType }.

(** An inbound request: the router's [id] parameter ([ByName] gives the
    empty string when there is none), the URL query as key/value pairs in
    order, and what reading the body yields. *)
Record Request := {
  param_id : string;
  URL_Query : list (string * string);
  Body : result string }.

(** [url.Values.Get]: the first value of the key, or the empty string. *)
Fixpoint Get (q : list (string * string)) (key : string) : string :=
  match q with
  | [] => ""
  | (k, v) :: q' => if decide (k = key) then v else Get q' key
  end.

(** [q[key]]: every value of the key, in order. *)
Definition values (q : list (string * string)) (key : string) : list string :=
  map snd (filter (fun kv => kv.1 = key) q).

Record notificationRuleLinks := {
  links_Self : string;
  links_Labels : string;
  links_Members : string;
  links_Owners : string;
  links_Query : string }.

(** The anonymous struct that [MarshalJSON] encodes beside the rule. *)
Record computedFields := {
  c_Labels : list Label;
  c_Links : notificationRuleLinks;
  c_Status : string;
  c_LatestCompleted : Time;
  c_LatestScheduled : Time;
  c_LastRunStatus : string;
  c_LastRunError : string }.

(** [influxdb.NotificationRuleFilter]: [OrgID] and [Organization] are
    pointers, nil in the zero value. *)
Record NotificationRuleFilter (Tag : Type) := {
  nrf_OrgID : option ID;
  nrf_Organization : option string;
  nrf_Tags : list Tag;
  nrf_UserResourceMappingFilter : UserResourceMappingFilter }.
Arguments nrf_OrgID {Tag} _.
Arguments nrf_Organization {Tag} _.
Arguments nrf_Tags {Tag} _.
Arguments nrf_UserResourceMappingFilter {Tag} _.

(** A JSON document as [encoding/json] writes it: objects keep the order
    of the struct's fields; [JRaw] is the output of a [MarshalJSON] method,
    spliced in as it is. *)
#[warnings="-register-all"]
Inductive json :=
| JNull
| JString (s : string)
| JRaw (bytes : string)
| JArray (items : list json)
| JObject (members : list (string * json)).

(** The member of an object under a name, if any. *)
Definition member (name : string) (j : json) : option json :=
  match j with
  | JObject ms => snd <$> find (fun m => bool_decide (m.1 = name)) ms
  | _ => None
  end.

Definition member_names (j : json) : list string :=
  match j with
  | JObject ms => map fst ms
  | _ => []
  end.

(** The methods of the [influxdb.NotificationRule] interface that the file
    calls.  The Go methods [SetID] and [ClearPrivateData] update the rule
    in place; here they return the updated rule. *)
Class NotificationRule (R Endpoint : Type) := {
  GetID : R -> ID;
  SetID : R -> ID -> R;
  GetTaskID : R -> ID;
  GetEndpointID : R -> ID;
  ClearPrivateData : R -> R;
  GenerateFlux : R -> Endpoint -> result string;
  (** [json.Marshal] of a rule. *)
  Marshal_rule : R -> result string }.

(** What the file imports from the rest of the repository and from the Go
    libraries, left open: the types it does not look into and the
    functions it calls. *)
Class Platform := {
  Rule : Type;
  Endpoint : Type;
  Tag : Type;
  FindOptions : Type;
  PagingLinks : Type;
  NotificationRuleUpdate : Type;
  Authorizer : Type;
  Rule_iface :: NotificationRule Rule Endpoint;
  (** the parse behind [ID.DecodeFromString] and [influxdb.IDFromString] *)
  parseID : string -> option ID;
  (** [ID.String] *)
  ID_String : ID -> string;
  (** [error.Error] *)
  Error_text : Error -> string;
  (** [rule.UnmarshalJSON] *)
  rule_UnmarshalJSON : string -> result Rule;
  (** [json.Unmarshal] into a [statusDecode]: the [Status] pointer, nil
      when the body has no [status] field or a null one *)
  Unmarshal_statusDecode : string -> result (option Status);
  (** [json.Unmarshal] into a [decodeLabels] *)
  Unmarshal_decodeLabels : string -> result (list string);
  (** [json.NewDecoder(..).Decode] into a [NotificationRuleUpdate] *)
  Decode_NotificationRuleUpdate : string -> result NotificationRuleUpdate;
  (** [NotificationRuleUpdate.Valid] *)
  Valid : NotificationRuleUpdate -> option Error;
  (** [json.Marshal] of the computed fields of a response *)
  Marshal_computed : computedFields -> result string;
  (** [newPagingLinks], with the filter's query parameters taken from the
      filter itself *)
  newPagingLinks :
    string -> FindOptions -> NotificationRuleFilter Tag -> nat -> PagingLinks;
  (** [json.Marshal] of a [*influxdb.PagingLinks] *)
  Marshal_PagingLinks : PagingLinks -> json;
  decodeFindOptions : Request -> result FindOptions;
  NewTag : string -> result Tag;
  GetUserID : Authorizer -> ID }.

(** ** The file, top to bottom *)
Section NotificationRuleHandler.
Context `{Platform}.

Record NotificationRuleCreate := {
  nrc_NotificationRule : Rule;
  nrc_Status : Status }.

(** The calls the handlers issue, by collaborator.  [CreateNotificationRule]
    returns only an error in Go and sets the rule's ID in place; its answer
    here carries the rule as the store left it. *)
Inductive call : Type -> Type :=
(* influxdb.TaskService *)
| FindTaskByID (id : ID) : call (result Task)
(* influxdb.LabelService *)
| FindResourceLabels (f : LabelMappingFilter) : call (result (list Label))
| FindLabelByID (id : ID) : call (result Label)
| CreateLabelMapping (m : LabelMapping) : call (result unit)
(* influxdb.NotificationRuleStore *)
| FindNotificationRuleByID (id : ID) : call (result Rule)
| FindNotificationRules (f : NotificationRuleFilter Tag) (opts : FindOptions)
  : call (result (list Rule * Z))
| CreateNotificationRule (nr : NotificationRuleCreate) (userID : ID)
  : call (result Rule)
| UpdateNotificationRule (id : ID) (nr : NotificationRuleCreate) (userID : ID)
  : call (result Rule)
| PatchNotificationRule (id : ID) (upd : NotificationRuleUpdate)
  : call (result Rule)
| DeleteNotificationRule (id : ID) : call (result unit)
(* influxdb.NotificationEndpointService *)
| FindNotificationEndpointByID (id : ID) : call (result Endpoint)
(* pctx.GetAuthorizer *)
| GetAuthorizer : call (result Authorizer).

Definition M := Prog call.

Definition nil_dereference : string :=
  "invalid memory address or nil pointer dereference".

Definition prefixNotificationRules : string := "/api/v2/notificationRules".
Definition notificationRulesIDPath := "/api/v2/notificationRules/:id".
Definition notificationRulesIDQueryPath := "/api/v2/notificationRules/:id/query".
Definition notificationRulesIDMembersPath := "/api/v2/notificationRules/:id/members".
Definition notificationRulesIDMembersIDPath :=
  "/api/v2/notificationRules/:id/members/:userID".
Definition notificationRulesIDOwnersPath := "/api/v2/notificationRules/:id/owners".
Definition notificationRulesIDOwnersIDPath :=
  "/api/v2/notificationRules/:id/owners/:userID".
Definition notificationRulesIDLabelsPath := "/api/v2/notificationRules/:id/labels".
Definition notificationRulesIDLabelsIDPath :=
  "/api/v2/notificationRules/:id/labels/:lid".

(** Modelled from the spec: the error of a malformed identifier.
    [influxdb.ID] and its errors are declared outside this file; the
    specification (section 7) classes a malformed identifier as
    invalid-argument. *)
Definition ErrInvalidID : Error := PlatformError EInvalid "invalid ID" "" None.

(** Modelled from the spec: [ID.DecodeFromString], declared outside this
    file.  An identifier that parses is returned; one that does not is an
    invalid argument.  The parse itself is [parseID]. *)
Definition DecodeFromString (s : string) : result ID :=
  match parseID s with
  | Some i => Ok i
  | None => Failed ErrInvalidID
  end.

(** Modelled from the spec: [influxdb.IDFromString], the same decoding
    behind a pointer. *)
Definition IDFromString (s : string) : result ID := DecodeFromString s.

Record notificationRuleResponse := {
  res_NotificationRule : Rule;
  res_Labels : list Label;
  res_Links : notificationRuleLinks;
  res_Status : string;
  res_LatestCompleted : Time;
  res_LatestScheduled : Time;
  res_LastRunStatus : string;
  res_LastRunError : string }.

(** [b[:len(b)-1]] and [b[1:]]; each panics on an empty slice. *)
Definition drop_last (b : string) : string := String.substring 0 (String.length b - 1) b.
Definition drop_first (b : string) : string := String.substring 1 (String.length b - 1) b.

Definition MarshalJSON (resp : notificationRuleResponse) : M (result string) :=
  let? b1 := Marshal_rule (res_NotificationRule resp)
    orelse err => Ret (Failed err) in
  let? b2 := Marshal_computed
      {| c_Labels := res_Labels resp;
         c_Links := res_Links resp;
         c_Status := res_Status resp;
         c_LatestCompleted := res_LatestCompleted resp;
         c_LatestScheduled := res_LatestScheduled resp;
         c_LastRunStatus := res_LastRunStatus resp;
         c_LastRunError := res_LastRunError resp |}
    orelse err => Ret (Failed err) in
  if decide (b1 = "" \/ b2 = "") then Panic "slice bounds out of range"
  else Ret (Ok (drop_last b1 +:+ ", " +:+ drop_first b2)).

Record notificationRulesResponse := {
  resp_NotificationRules : list notificationRuleResponse;
  resp_Links : PagingLinks }.

Definition newNotificationRuleResponse (nr : Rule) (labels : list Label)
  : M (result notificationRuleResponse) :=
  let* t := invoke (FindTaskByID (GetTaskID nr)) in
  let? t := t orelse err => Ret (Failed err) in
  let nr := ClearPrivateData nr in
  let res :=
    {| res_NotificationRule := nr;
       res_Links :=
         {| links_Self := "/api/v2/notificationRules/" +:+ ID_String (GetID nr);
            links_Labels :=
              "/api/v2/notificationRules/" +:+ ID_String (GetID nr) +:+ "/labels";
            links_Members :=
              "/api/v2/notificationRules/" +:+ ID_String (GetID nr) +:+ "/members";
            links_Owners :=
              "/api/v2/notificationRules/" +:+ ID_String (GetID nr) +:+ "/owners";
            links_Query :=
              "/api/v2/notificationRules/" +:+ ID_String (GetID nr) +:+ "/query" |};
       res_Labels := [];
       res_Status := Task_Status t;
       res_LatestCompleted := Task_LatestCompleted t;
       res_LatestScheduled := Task_LatestScheduled t;
       res_LastRunStatus := Task_LastRunStatus t;
       res_LastRunError := Task_LastRunError t |} in
  Ret (Ok (fold_left
             (fun res l =>
                {| res_NotificationRule := res_NotificationRule res;
                   res_Links := res_Links res;
                   res_Labels := res_Labels res ++ [l];
                   res_Status := res_Status res;
                   res_LatestCompleted := res_LatestCompleted res;
                   res_LatestScheduled := res_LatestScheduled res;
                   res_LastRunStatus := res_LastRunStatus res;
                   res_LastRunError := res_LastRunError res |})
             labels res)).

(** The label service's answer is used whatever its error: a failed fetch
    leaves no labels. *)
Definition newNotificationRulesResponse (nrs : list Rule)
    (f : NotificationRuleFilter Tag) (opts : FindOptions)
  : M (result notificationRulesResponse) :=
  let resp :=
    {| resp_NotificationRules := [];
       resp_Links := newPagingLinks prefixNotificationRules opts f (length nrs) |} in
  let* resp :=
    range (fun resp nr =>
      let* labels :=
        invoke (FindResourceLabels
                {| lmf_ResourceID := GetID nr; lmf_ResourceType := NoResourceType |}) in
      let labels := default [] (ok_value labels) in
      let* res := newNotificationRuleResponse nr labels in
      let? res := res orelse err => Ret resp in
      Ret {| resp_NotificationRules := resp_NotificationRules resp ++ [res];
             resp_Links := resp_Links resp |})
      nrs resp in
  Ret (Ok resp).

Definition decodeGetNotificationRuleRequest (r : Request) : result ID :=
  let id := param_id r in
  if decide (id = "") then
    Failed (PlatformError EInvalid "url missing id" "" None)
  else
    let? i := DecodeFromString id orelse err => Failed err in
    Ok i.

Definition decodeUserResourceMappingFilter (r : Request) (typ : ResourceType)
  : result UserResourceMappingFilter :=
  let q := URL_Query r in
  let f := {| urm_ResourceType := typ; urm_ResourceID := 0%N; urm_UserID := 0%N |} in
  let? f :=
    (if decide (Get q "resourceID" = "") then Ok f
     else
       let? id := IDFromString (Get q "resourceID") orelse err => Failed err in
       Ok {| urm_ResourceType := urm_ResourceType f;
             urm_ResourceID := id;
             urm_UserID := urm_UserID f |})
    orelse err => Failed err in
  let? f :=
    (if decide (Get q "userID" = "") then Ok f
     else
       let? id := IDFromString (Get q "userID") orelse err => Failed err in
       Ok {| urm_ResourceType := urm_ResourceType f;
             urm_ResourceID := urm_ResourceID f;
             urm_UserID := id |})
    orelse err => Failed err in
  Ok f.

(** [f := &influxdb.NotificationRuleFilter{}] leaves both pointers nil; the
    assignment [*f.Organization = orgNameStr] writes through the pointer it
    finds in the field. *)
Definition decodeNotificationRuleFilter (r : Request)
  : M (result (NotificationRuleFilter Tag * FindOptions)) :=
  let f :=
    {| nrf_OrgID := None;
       nrf_Organization := None;
       nrf_Tags := [];
       nrf_UserResourceMappingFilter :=
         {| urm_ResourceType := NoResourceType;
            urm_ResourceID := 0%N;
            urm_UserID := 0%N |} |} in
  let f :=
    match decodeUserResourceMappingFilter r NotificationRuleResourceType with
    | Ok urm =>
        {| nrf_OrgID := nrf_OrgID f;
           nrf_Organization := nrf_Organization f;
           nrf_Tags := nrf_Tags f;
           nrf_UserResourceMappingFilter := urm |}
    | Failed _ => f
    end in
  let? opts := decodeFindOptions r orelse err => Ret (Failed err) in
  let q := URL_Query r in
  let* f :=
    if decide (Get q "orgID" = "") then
      if decide (Get q "org" = "") then Ret (Ok f)
      else
        match nrf_Organization f with
        | None => Panic nil_dereference
        | Some _ =>
            Ret (Ok {| nrf_OrgID := nrf_OrgID f;
                       nrf_Organization := Some (Get q "org");
                       nrf_Tags := nrf_Tags f;
                       nrf_UserResourceMappingFilter :=
                         nrf_UserResourceMappingFilter f |})
        end
    else
      let? orgID := IDFromString (Get q "orgID")
        orelse err =>
          Ret (Failed (PlatformError EInvalid "orgID is invalid" "" (Some err))) in
      Ret (Ok {| nrf_OrgID := Some orgID;
                 nrf_Organization := nrf_Organization f;
                 nrf_Tags := nrf_Tags f;
                 nrf_UserResourceMappingFilter :=
                   nrf_UserResourceMappingFilter f |}) in
  let? f := f orelse err => Ret (Failed err) in
  let f :=
    fold_left
      (fun f tag =>
         match NewTag tag with
         | Ok tp =>
             {| nrf_OrgID := nrf_OrgID f;
                nrf_Organization := nrf_Organization f;
                nrf_Tags := nrf_Tags f ++ [tp];
                nrf_UserResourceMappingFilter := nrf_UserResourceMappingFilter f |}
         | Failed _ => f
         end)
      (values q "tag") f in
  Ret (Ok (f, opts)).

Record postNotificationRuleRequest := {
  pnrr_NotificationRuleCreate : NotificationRuleCreate;
  pnrr_Labels : list string }.

(** [Status: *sts.Status] dereferences the pointer that [json.Unmarshal]
    left in [sts]. *)
Definition decodePostNotificationRuleRequest (r : Request)
  : M (result postNotificationRuleRequest) :=
  let? buf := Body r
    orelse err => Ret (Failed (PlatformError EInvalid "" "" (Some err))) in
  let? nr := rule_UnmarshalJSON buf
    orelse err => Ret (Failed (PlatformError EInvalid "" "" (Some err))) in
  let? sts := Unmarshal_statusDecode buf orelse err => Ret (Failed err) in
  let? dl := Unmarshal_decodeLabels buf orelse err => Ret (Failed err) in
  match sts with
  | None => Panic nil_dereference
  | Some status =>
      Ret (Ok {| pnrr_NotificationRuleCreate :=
                   {| nrc_NotificationRule := nr; nrc_Status := status |};
                 pnrr_Labels := dl |})
  end.

Definition decodePutNotificationRuleRequest (r : Request)
  : M (result NotificationRuleCreate) :=
  let? buf := Body r
    orelse err => Ret (Failed (PlatformError EInvalid "" "" (Some err))) in
  let? nr := rule_UnmarshalJSON buf
    orelse err => Ret (Failed (PlatformError EInvalid "" "" (Some err))) in
  let id := param_id r in
  if decide (id = "") then
    Ret (Failed (PlatformError EInvalid "url missing id" "" None))
  else
    let? i := DecodeFromString id orelse err => Ret (Failed err) in
    let nr := SetID nr i in
    let? sts := Unmarshal_statusDecode buf orelse err => Ret (Failed err) in
    match sts with
    | None => Panic nil_dereference
    | Some status =>
        Ret (Ok {| nrc_NotificationRule := nr; nrc_Status := status |})
    end.

Record patchNotificationRuleRequest := {
  pnr_ID : ID;
  pnr_Update : NotificationRuleUpdate }.

(** A body that cannot be read surfaces as the decoder's error. *)
Definition decodePatchNotificationRuleRequest (r : Request)
  : result patchNotificationRuleRequest :=
  let id := param_id r in
  if decide (id = "") then
    Failed (PlatformError EInvalid "url missing id" "" None)
  else
    let? i := DecodeFromString id orelse err => Failed err in
    let? upd :=
      (let? buf := Body r orelse err => Failed err in
       Decode_NotificationRuleUpdate buf)
      orelse err => Failed (PlatformError EInvalid (Error_text err) "" None) in
    match Valid upd with
    | Some err => Failed (PlatformError EInvalid (Error_text err) "" None)
    | None => Ok {| pnr_ID := i; pnr_Update := upd |}
    end.

(** What a handler does with its [http.ResponseWriter]. *)
Inductive body :=
| RuleBody (res : notificationRuleResponse)
| RulesBody (res : notificationRulesResponse)
| FluxBody (flux : string).

Inductive reply :=
| HandleHTTPError (err : Error)
| EncodeResponse (status : nat) (b : body)
| WriteHeader (status : nat).

Definition StatusOK : nat := 200.
Definition StatusCreated : nat := 201.
Definition StatusNoContent : nat := 204.

Definition handleGetNotificationRules (r : Request) : M reply :=
  let* d := decodeNotificationRuleFilter r in
  let? d := d orelse err => Ret (HandleHTTPError err) in
  let filter := d.1 in
  let opts := d.2 in
  let* found := invoke (FindNotificationRules filter opts) in
  let? found := found orelse err => Ret (HandleHTTPError err) in
  let nrs := found.1 in
  let* res := newNotificationRulesResponse nrs filter opts in
  let? res := res orelse err => Ret (HandleHTTPError err) in
  Ret (EncodeResponse StatusOK (RulesBody res)).

Definition handleGetNotificationRuleQuery (r : Request) : M reply :=
  let? id := decodeGetNotificationRuleRequest r
    orelse err => Ret (HandleHTTPError err) in
  let* nr := invoke (FindNotificationRuleByID id) in
  let? nr := nr orelse err => Ret (HandleHTTPError err) in
  let* edp := invoke (FindNotificationEndpointByID (GetEndpointID nr)) in
  let? edp := edp
    orelse err =>
      Ret (HandleHTTPError
             (PlatformError EInternal "" "http/handleGetNotificationRuleQuery"
                (Some err))) in
  let? flux := GenerateFlux nr edp orelse err => Ret (HandleHTTPError err) in
  Ret (EncodeResponse StatusOK (FluxBody flux)).

Definition handleGetNotificationRule (r : Request) : M reply :=
  let? id := decodeGetNotificationRuleRequest r
    orelse err => Ret (HandleHTTPError err) in
  let* nr := invoke (FindNotificationRuleByID id) in
  let? nr := nr orelse err => Ret (HandleHTTPError err) in
  let* labels :=
    invoke (FindResourceLabels
              {| lmf_ResourceID := GetID nr; lmf_ResourceType := NoResourceType |}) in
  let? labels := labels orelse err => Ret (HandleHTTPError err) in
  let* res := newNotificationRuleResponse nr labels in
  let? res := res orelse err => Ret (HandleHTTPError err) in
  Ret (EncodeResponse StatusOK (RuleBody res)).

Definition mapNewNotificationRuleLabels (nrc : NotificationRuleCreate)
    (labels : list string) : M (list Label) :=
  range (fun ls sid =>
    let? lid := DecodeFromString sid orelse err => Ret ls in
    let* label := invoke (FindLabelByID lid) in
    let? label := label orelse err => Ret ls in
    let mapping :=
      {| lm_LabelID := Label_ID label;
         lm_ResourceID := GetID (nrc_NotificationRule nrc);
         lm_ResourceType := NotificationRuleResourceType |} in
    let* created := invoke (CreateLabelMapping mapping) in
    let? created := created orelse err => Ret ls in
    Ret (ls ++ [label]))
    labels [].

(** The store sets the ID on the rule that the decoded request holds, so
    label attachment and composition see the rule as the store left it. *)
Definition handlePostNotificationRule (r : Request) : M reply :=
  let* nr := decodePostNotificationRuleRequest r in
  let? nr := nr orelse err => Ret (HandleHTTPError err) in
  let* auth := invoke GetAuthorizer in
  let? auth := auth orelse err => Ret (HandleHTTPError err) in
  let* stored :=
    invoke (CreateNotificationRule (pnrr_NotificationRuleCreate nr)
              (GetUserID auth)) in
  let? stored := stored orelse err => Ret (HandleHTTPError err) in
  let nrc :=
    {| nrc_NotificationRule := stored;
       nrc_Status := nrc_Status (pnrr_NotificationRuleCreate nr) |} in
  let* labels := mapNewNotificationRuleLabels nrc (pnrr_Labels nr) in
  let* res := newNotificationRuleResponse (nrc_NotificationRule nrc) labels in
  let? res := res orelse err => Ret (HandleHTTPError err) in
  Ret (EncodeResponse StatusCreated (RuleBody res)).

Definition handlePutNotificationRule (r : Request) : M reply :=
  let* nrc := decodePutNotificationRuleRequest r in
  let? nrc := nrc orelse err => Ret (HandleHTTPError err) in
  let* auth := invoke GetAuthorizer in
  let? auth := auth orelse err => Ret (HandleHTTPError err) in
  let* nr :=
    invoke (UpdateNotificationRule (GetID (nrc_NotificationRule nrc)) nrc
              (GetUserID auth)) in
  let? nr := nr orelse err => Ret (HandleHTTPError err) in
  let* labels :=
    invoke (FindResourceLabels
              {| lmf_ResourceID := GetID nr; lmf_ResourceType := NoResourceType |}) in
  let? labels := labels orelse err => Ret (HandleHTTPError err) in
  let* res := newNotificationRuleResponse nr labels in
  let? res := res orelse err => Ret (HandleHTTPError err) in
  Ret (EncodeResponse StatusOK (RuleBody res)).

Definition handlePatchNotificationRule (r : Request) : M reply :=
  let? req := decodePatchNotificationRuleRequest r
    orelse err => Ret (HandleHTTPError err) in
  let* nr := invoke (PatchNotificationRule (pnr_ID req) (pnr_Update req)) in
  let? nr := nr orelse err => Ret (HandleHTTPError err) in
  let* labels :=
    invoke (FindResourceLabels
              {| lmf_ResourceID := GetID nr; lmf_ResourceType := NoResourceType |}) in
  let? labels := labels orelse err => Ret (HandleHTTPError err) in
  let* res := newNotificationRuleResponse nr labels in
  let? res := res orelse err => Ret (HandleHTTPError err) in
  Ret (EncodeResponse StatusOK (RuleBody res)).

Definition handleDeleteNotificationRule (r : Request) : M reply :=
  let? i := decodeGetNotificationRuleRequest r
    orelse err => Ret (HandleHTTPError err) in
  let* deleted := invoke (DeleteNotificationRule i) in
  let? deleted := deleted orelse err => Ret (HandleHTTPError err) in
  Ret (WriteHeader StatusNoContent).

(** [encoding/json] on a [notificationRulesResponse]: one member per
    field, named by the field's [json] tag, the items through their
    [MarshalJSON]. *)
Fixpoint Marshal_items (rs : list notificationRuleResponse)
  : M (result (list json)) :=
  match rs with
  | [] => Ret (Ok [])
  | res :: rs' =>
      let* b := MarshalJSON res in
      let? b := b orelse err => Ret (Failed err) in
      let* bs := Marshal_items rs' in
      let? bs := bs orelse err => Ret (Failed err) in
      Ret (Ok (JRaw b :: bs))
  end.

Definition Marshal_notificationRulesResponse (resp : notificationRulesResponse)
  : M (result json) :=
  let* items := Marshal_items (resp_NotificationRules resp) in
  let? items := items orelse err => Ret (Failed err) in
  Ret (Ok (JObject
             [("notificationRules", JArray items);
              ("links", Marshal_PagingLinks (resp_Links resp))])).

(** The routes that [NewNotificationRuleHandler] registers.  The member,
    owner and label handlers are built elsewhere from the backend given
    here. *)
Inductive handlerFunc :=
| ruleHandler (h : Request -> M reply)
| newPostMemberHandler (b : MemberBackend)
| newGetMembersHandler (b : MemberBackend)
| newDeleteMemberHandler (b : MemberBackend)
| newGetLabelsHandler (b : LabelBackend)
| newPostLabelHandler (b : LabelBackend)
| newDeleteLabelHandler (b : LabelBackend).

Record route := {
  route_method : string;
  route_path : string;
  route_handler : handlerFunc }.

Definition HandlerFunc (method path : string) (h : handlerFunc) : route :=
  {| route_method := method; route_path := path; route_handler := h |}.

Definition NewNotificationRuleHandler : list route :=
  let memberBackend :=
    {| mb_ResourceType := NotificationRuleResourceType; mb_UserType := Member |} in
  let ownerBackend :=
    {| mb_ResourceType := NotificationRuleResourceType; mb_UserType := Owner |} in
  let labelBackend := {| lb_ResourceType := TelegrafsResourceType |} in
  [ HandlerFunc "POST" prefixNotificationRules (ruleHandler handlePostNotificationRule);
    HandlerFunc "GET" prefixNotificationRules (ruleHandler handleGetNotificationRules);
    HandlerFunc "GET" notificationRulesIDPath (ruleHandler handleGetNotificationRule);
    HandlerFunc "GET" notificationRulesIDQueryPath
      (ruleHandler handleGetNotificationRuleQuery);
    HandlerFunc "DELETE" notificationRulesIDPath
      (ruleHandler handleDeleteNotificationRule);
    HandlerFunc "PUT" notificationRulesIDPath (ruleHandler handlePutNotificationRule);
    HandlerFunc "PATCH" notificationRulesIDPath
      (ruleHandler handlePatchNotificationRule);
    HandlerFunc "POST" notificationRulesIDMembersPath
      (newPostMemberHandler memberBackend);
    HandlerFunc "GET" notificationRulesIDMembersPath
      (newGetMembersHandler memberBackend);
    HandlerFunc "DELETE" notificationRulesIDMembersIDPath
      (newDeleteMemberHandler memberBackend);
    HandlerFunc "POST" notificationRulesIDOwnersPath
      (newPostMemberHandler ownerBackend);
    HandlerFunc "GET" notificationRulesIDOwnersPath
      (newGetMembersHandler ownerBackend);
    HandlerFunc "DELETE" notificationRulesIDOwnersIDPath
      (newDeleteMemberHandler ownerBackend);
    HandlerFunc "GET" notificationRulesIDLabelsPath (newGetLabelsHandler labelBackend);
    HandlerFunc "POST" notificationRulesIDLabelsPath
      (newPostLabelHandler labelBackend);
    HandlerFunc "DELETE" notificationRulesIDLabelsIDPath
      (newDeleteLabelHandler labelBackend) ].

(** ** Reading a trace

    The calls of one kind in a trace, each with its answer, in order. *)
Definition task_lookup (e : event call) : option (ID * result Task) :=
  match e with
  | Ev c x =>
      match c in call X return X -> option (ID * result Task) with
      | FindTaskByID id => fun r => Some (id, r)
      | _ => fun _ => None
      end x
  end.

Definition label_fetch (e : event call)
  : option (LabelMappingFilter * result (list Label)) :=
  match e with
  | Ev c x =>
      match c in call X
            return X -> option (LabelMappingFilter * result (list Label)) with
      | FindResourceLabels f => fun r => Some (f, r)
      | _ => fun _ => None
      end x
  end.

Definition label_lookup (e : event call) : option (ID * result Label) :=
  match e with
  | Ev c x =>
      match c in call X return X -> option (ID * result Label) with
      | FindLabelByID id => fun r => Some (id, r)
      | _ => fun _ => None
      end x
  end.

Definition mapping_creation (e : event call)
  : option (LabelMapping * result unit) :=
  match e with
  | Ev c x =>
      match c in call X return X -> option (LabelMapping * result unit) with
      | CreateLabelMapping m => fun r => Some (m, r)
      | _ => fun _ => None
      end x
  end.

Definition task_lookups (tr : list (event call)) := omap task_lookup tr.
Definition label_fetches (tr : list (event call)) := omap label_fetch tr.
Definition label_lookups (tr : list (event call)) := omap label_lookup tr.
Definition mapping_creations (tr : list (event call)) := omap mapping_creation tr.

(** Calls on the rule store, and reads of the authenticated principal. *)
Definition is_store_call (e : event call) : bool :=
  match e with
  | Ev c _ =>
      match c with
      | FindNotificationRuleByID _ | FindNotificationRules _ _
      | CreateNotificationRule _ _ | UpdateNotificationRule _ _ _
      | PatchNotificationRule _ _ | DeleteNotificationRule _ => true
      | _ => false
      end
  end.

Definition is_GetAuthorizer (e : event call) : bool :=
  match e with
  | Ev c _ => match c with GetAuthorizer => true | _ => false end
  end.

(** An event that is neither a store call nor a read of the principal. *)
Definition quiet (e : event call) : Prop :=
  is_store_call e = false /\ is_GetAuthorizer e = false.

(** The error a collaborator answered with, if it did. *)
Definition error_of {A} (r : result A) : option Error :=
  match r with Ok _ => None | Failed err => Some err end.

Definition answered_error (e : event call) : option Error :=
  match e with
  | Ev c x =>
      match c in call X return X -> option Error with
      | FindTaskByID _ => error_of
      | FindResourceLabels _ => error_of
      | FindLabelByID _ => error_of
      | CreateLabelMapping _ => error_of
      | FindNotificationRuleByID _ => error_of
      | FindNotificationRules _ _ => error_of
      | CreateNotificationRule _ _ => error_of
      | UpdateNotificationRule _ _ _ => error_of
      | PatchNotificationRule _ _ => error_of
      | DeleteNotificationRule _ => error_of
      | FindNotificationEndpointByID _ => error_of
      | GetAuthorizer => error_of
      end x
  end.

(** What a composed item shows of its sources: the embedded rule, the
    labels, and the task's run-status snapshot. *)
Definition item_view (res : notificationRuleResponse)
  : Rule * list Label * Task :=
  (res_NotificationRule res, res_Labels res,
   {| Task_Status := res_Status res;
      Task_LatestCompleted := res_LatestCompleted res;
      Task_LatestScheduled := res_LatestScheduled res;
      Task_LastRunStatus := res_LastRunStatus res;
      Task_LastRunError := res_LastRunError res |}).

(** Degradation per item, in the words of the specification: a rule whose
    task status cannot be fetched is left out; a rule whose labels cannot
    be fetched is shown with no labels. *)
Definition degraded (nr : Rule) (labels : result (list Label)) (t : result Task)
  : option (Rule * list Label * Task) :=
  match t with
  | Failed _ => None
  | Ok t =>
      Some (ClearPrivateData nr,
            match labels with Ok ls => ls | Failed _ => [] end,
            t)
  end.

(** The answers a run got for each rule of a list: the k-th label fetch and
    the k-th task lookup of the trace go with the k-th rule. *)
Definition answers (nrs : list Rule) (tr : list (event call))
  : list (Rule * result (list Label) * result Task) :=
  zip (zip nrs (map snd (label_fetches tr))) (map snd (task_lookups tr)).

(** The mapping that create-time attachment asks for, for a label. *)
Definition mapping_of (nrc : NotificationRuleCreate) (l : Label) : LabelMapping :=
  {| lm_LabelID := Label_ID l;
     lm_ResourceID := GetID (nrc_NotificationRule nrc);
     lm_ResourceType := NotificationRuleResourceType |}.

(** The labels a run attached: those it resolved and then mapped with
    success, in order. *)
Definition resolved (tr : list (event call)) : list Label :=
  omap (fun a => ok_value a.2) (label_lookups tr).

Definition attached (tr : list (event call)) : list Label :=
  omap (fun a => if is_ok a.2 then Some a.1 else None)
    (zip (resolved tr) (map snd (mapping_creations tr))).

End NotificationRuleHandler.

(** ** The remote store adapter

    [NotificationRuleService] implements the store over an HTTP client.  A
    wire call is one request of the client ([Do]); its answer is what was
    decoded into the [notificationRuleDecoder] and the error.  The methods
    return Go's value/error pairs as they are, nil included. *)
Module NotificationRuleService.
Section Adapter.
Context `{Platform}.

Record notificationRuleDecoder := { rule : option Rule }.

Inductive wire : Type -> Type :=
| PostJSON (nr : NotificationRuleCreate) (path : string)
  : wire (notificationRuleDecoder * option Error)
| GetJSON (path : string) : wire (notificationRuleDecoder * option Error).

(** [path.Join(prefixNotificationRules, id.String())] *)
Definition getNotificationRulesIDPath (id : ID) : string :=
  prefixNotificationRules +:+ "/" +:+ ID_String id.

Definition CreateNotificationRule (nr : NotificationRuleCreate) (userID : ID)
  : Prog wire (option Error) :=
  let* resp := invoke (PostJSON nr prefixNotificationRules) in
  Ret resp.2.

Definition FindNotificationRuleByID (id : ID)
  : Prog wire (option Rule * option Error) :=
  let* resp := invoke (GetJSON (getNotificationRulesIDPath id)) in
  Ret (rule resp.1, resp.2).

Definition FindNotificationRules (filter : NotificationRuleFilter Tag)
    (opt : list FindOptions) : Prog wire (list Rule * Z * option Error) :=
  Ret ([], 0%Z, None).

Definition UpdateNotificationRule (id : ID) (nr : NotificationRuleCreate)
    (userID : ID) : Prog wire (option Rule * option Error) :=
  Ret (None, None).

Definition PatchNotificationRule (id : ID) (upd : NotificationRuleUpdate)
  : Prog wire (option Rule * option Error) :=
  Ret (None, None).

Definition DeleteNotificationRule (id : ID) : Prog wire (option Error) :=
  Ret None.

End Adapter.
End NotificationRuleService.

(** ** A small platform to run the handlers on

    One rule type with a secret token, identifiers written as sixteen
    hexadecimal digits, three request bodies, and collaborators that know
    three rules, one label and one failing task. *)
Module Fixture.

Record rule := {
  r_ID : ID;
  r_TaskID : ID;
  r_EndpointID : ID;
  r_Name : string;
  r_Token : string }.

#[export] Instance rule_iface : NotificationRule rule unit := {|
  GetID := r_ID;
  SetID r i :=
    {| r_ID := i; r_TaskID := r_TaskID r; r_EndpointID := r_EndpointID r;
       r_Name := r_Name r; r_Token := r_Token r |};
  GetTaskID := r_TaskID;
  GetEndpointID := r_EndpointID;
  ClearPrivateData r :=
    {| r_ID := r_ID r; r_TaskID := r_TaskID r; r_EndpointID := r_EndpointID r;
       r_Name := r_Name r; r_Token := "" |};
  GenerateFlux r _ := Ok ("notify " +:+ r_Name r);
  Marshal_rule r := Ok ("{name:" +:+ r_Name r +:+ ",token:" +:+ r_Token r +:+ "}") |}.

Definition hex_digit (c : Ascii.ascii) : option N :=
  let n := Ascii.N_of_ascii c in
  if (48 <=? n)%N && (n <=? 57)%N then Some (n - 48)%N
  else if (97 <=? n)%N && (n <=? 102)%N then Some (n - 87)%N
  else None.

Fixpoint parse_hex (s : string) (acc : N) : option N :=
  match s with
  | EmptyString => Some acc
  | String c s' =>
      match hex_digit c with
      | Some d => parse_hex s' (16 * acc + d)%N
      | None => None
      end
  end.

Definition parse_id (s : string) : option ID :=
  if decide (String.length s = 16) then
    match parse_hex s 0%N with
    | Some 0%N => None
    | r => r
    end
  else None.

Definition body_full : string :=
  "{type:slack,name:cpu,token:s3cr3t,status:active,labels:[000000000000000a,zzz,000000000000000b]}".
Definition body_no_status : string := "{type:slack,name:cpu,token:s3cr3t}".
Definition body_patch : string := "{name:mem}".

Definition decoded_rule : rule :=
  {| r_ID := 0; r_TaskID := 0; r_EndpointID := 4; r_Name := "cpu";
     r_Token := "s3cr3t" |}%N.

Definition syntax_error : Error := ForeignError "invalid character".

#[export] Instance platform : Platform := {|
  Rule := rule;
  Endpoint := unit;
  Tag := string;
  FindOptions := unit;
  PagingLinks := string;
  NotificationRuleUpdate := string;
  Authorizer := ID;
  Rule_iface := rule_iface;
  parseID := parse_id;
  ID_String i := "#" +:+ pretty i;
  Error_text e :=
    match e with PlatformError _ msg _ _ => msg | ForeignError text => text end;
  rule_UnmarshalJSON buf :=
    if decide (buf = body_full \/ buf = body_no_status) then Ok decoded_rule
    else Failed syntax_error;
  Unmarshal_statusDecode buf :=
    if decide (buf = body_full) then Ok (Some "active")
    else if decide (buf = body_no_status) then Ok None
    else Failed syntax_error;
  Unmarshal_decodeLabels buf :=
    if decide (buf = body_full) then
      Ok ["000000000000000a"; "zzz"; "000000000000000b"]
    else if decide (buf = body_no_status) then Ok []
    else Failed syntax_error;
  Decode_NotificationRuleUpdate buf :=
    if decide (buf = body_patch) then Ok "mem" else Failed syntax_error;
  Valid upd := None;
  Marshal_computed c := Ok ("{status:" +:+ c_Status c +:+ "}");
  newPagingLinks base opts f n := base;
  Marshal_PagingLinks l := JObject [("self", JString l)];
  decodeFindOptions r := Ok tt;
  NewTag s := if decide (s = "") then Failed syntax_error else Ok s;
  GetUserID a := a |}.

Definition stored_rule (id : ID) : rule :=
  {| r_ID := id; r_TaskID := (id + 4)%N; r_EndpointID := 4%N; r_Name := "cpu";
     r_Token := "s3cr3t" |}.

Definition label_a : Label := {| Label_ID := 10%N; Label_Name := "ops" |}.

Definition task_active : Task :=
  {| Task_Status := "active"; Task_LatestCompleted := 0%Z;
     Task_LatestScheduled := 0%Z; Task_LastRunStatus := "";
     Task_LastRunError := "" |}.

Definition not_found (what : string) : Error :=
  PlatformError ENotFound what "" None.

(** The collaborators: rules 1, 2 and 3 exist; the task of rule 2 (task 6)
    cannot be found; the labels of rule 3 cannot be fetched; label 10
    exists; the state is the list of the mappings created so far. *)
Definition collaborators : world call (list LabelMapping) :=
  fun X (c : call X) =>
    match c in call X return list LabelMapping -> X * list LabelMapping with
    | FindTaskByID id => fun s =>
        (if decide (id = 6%N) then Failed (not_found "task not found")
         else Ok task_active, s)
    | FindResourceLabels f => fun s =>
        (if decide (lmf_ResourceID f = 3%N)
         then Failed (PlatformError EInternal "label store unavailable" "" None)
         else Ok (if decide (lmf_ResourceID f = 1%N) then [label_a] else []), s)
    | FindLabelByID id => fun s =>
        (if decide (id = 10%N) then Ok label_a
         else Failed (not_found "label not found"), s)
    | CreateLabelMapping m => fun s => (Ok (), m :: s)
    | FindNotificationRuleByID id => fun s =>
        (if decide (1 <= id <= 3)%N then Ok (stored_rule id)
         else Failed (not_found "notification rule not found"), s)
    | FindNotificationRules f opts => fun s =>
        (Ok ([stored_rule 1%N; stored_rule 2%N; stored_rule 3%N], 3%Z), s)
    | CreateNotificationRule nr userID => fun s =>
        (Ok {| r_ID := 1; r_TaskID := 5;
               r_EndpointID := r_EndpointID (nrc_NotificationRule nr);
               r_Name := r_Name (nrc_NotificationRule nr);
               r_Token := r_Token (nrc_NotificationRule nr) |}%N, s)
    | UpdateNotificationRule id nr userID => fun s =>
        (if decide (1 <= id <= 3)%N then Ok (nrc_NotificationRule nr)
         else Failed (not_found "notification rule not found"), s)
    | PatchNotificationRule id upd => fun s =>
        (if decide (1 <= id <= 3)%N then Ok (stored_rule id)
         else Failed (not_found "notification rule not found"), s)
    | DeleteNotificationRule id => fun s =>
        (if decide (1 <= id <= 3)%N then Ok ()
         else Failed (not_found "notification rule not found"), s)
    | FindNotificationEndpointByID id => fun s => (Ok (), s)
    | GetAuthorizer => fun s => (Ok 99%N, s)
    end.

Definition request (id : string) (q : list (string * string)) (b : string)
  : Request :=
  {| param_id := id; URL_Query := q; Body := Ok b |}.

End Fixture.

(** * Proofs *)

(** ** Running a program *)
Section ProgramFacts.
Context {E : Type -> Type} {S : Type} (w : world E S).

Lemma run_bind {A B} (m : Prog E A) (f : A -> Prog E B) s :
  run w (bind m f) s =
  match run w m s with
  | (Done a, tr, s1) =>
      let '(o, tr2, s2) := run w (f a) s1 in (o, tr ++ tr2, s2)
  | (Panicked why, tr, s1) => (Panicked why, tr, s1)
  end.
Proof.
  revert s. induction m as [a|why|X c k IH]; intros s; simpl.
  - by destruct (run w (f a) s) as [[o tr] s2].
  - done.
  - destruct (w X c s) as [x s1]. rewrite IH.
    destruct (run w (k x) s1) as [[[a|why] tr] s2]; [|done].
    by destruct (run w (f a) s2) as [[o tr2] s3].
Qed.

Lemma run_invoke {X} (c : E X) s :
  run w (invoke c) s = (Done (w _ c s).1, [Ev c (w _ c s).1], (w _ c s).2).
Proof. unfold invoke. simpl. by destruct (w X c s). Qed.

End ProgramFacts.

Section Proofs.
Context `{Platform} {S : Type} (w : world call S).

Lemma append_labels_fold (labels : list Label) (res0 : notificationRuleResponse) :
  fold_left
    (fun res l =>
       {| res_NotificationRule := res_NotificationRule res;
          res_Links := res_Links res;
          res_Labels := res_Labels res ++ [l];
          res_Status := res_Status res;
          res_LatestCompleted := res_LatestCompleted res;
          res_LatestScheduled := res_LatestScheduled res;
          res_LastRunStatus := res_LastRunStatus res;
          res_LastRunError := res_LastRunError res |})
    labels res0 =
  {| res_NotificationRule := res_NotificationRule res0;
     res_Links := res_Links res0;
     res_Labels := res_Labels res0 ++ labels;
     res_Status := res_Status res0;
     res_LatestCompleted := res_LatestCompleted res0;
     res_LatestScheduled := res_LatestScheduled res0;
     res_LastRunStatus := res_LastRunStatus res0;
     res_LastRunError := res_LastRunError res0 |}.
Proof.
  revert res0. induction labels as [|l labels IH]; intros res0; simpl.
  - destruct res0; simpl. by rewrite app_nil_r.
  - rewrite IH. simpl. by rewrite <- app_assoc.
Qed.

(** One composition: a single task lookup; its failure is the composer's
    failure, its snapshot and the labels given go into the item. *)
Lemma run_newNotificationRuleResponse nr labels s :
  let a := w _ (FindTaskByID (GetTaskID nr)) s in
  exists r,
    run w (newNotificationRuleResponse nr labels) s =
      (Done r, [Ev (FindTaskByID (GetTaskID nr)) a.1], a.2) /\
    match a.1 with
    | Failed err => r = Failed err
    | Ok t =>
        exists res, r = Ok res /\
          item_view res = (ClearPrivateData nr, labels, t)
    end.
Proof.
  unfold newNotificationRuleResponse. simpl.
  destruct (w _ (FindTaskByID (GetTaskID nr)) s) as [[t|err] s1]; simpl.
  - eexists. split; [reflexivity|]. eexists. split; [reflexivity|].
    rewrite append_labels_fold. unfold item_view. simpl. by destruct t.
  - eexists. split; reflexivity.
Qed.

Lemma degraded_sublist (nrs : list Rule) ls ts :
  map (fun v => v.1.1) (omap (fun a => degraded a.1.1 a.1.2 a.2) (zip (zip nrs ls) ts))
    `sublist_of` map ClearPrivateData nrs.
Proof.
  revert ls ts. induction nrs as [|nr nrs IH]; intros [|l ls] [|t ts]; simpl;
    try apply sublist_nil_l.
  destruct t as [t|err]; simpl.
  - apply sublist_skip, IH.
  - apply sublist_cons, IH.
Qed.

(** Whatever the collaborators answer, the list composer returns a
    response and no error.  It fetches the labels and the task status of
    every rule, in the store's order, also when the label fetch of that
    rule failed.  The items are exactly what
    [degraded] keeps of each rule and its two answers: a rule whose task
    lookup failed is absent, a rule whose label fetch failed has no labels.
    Hence there are at most as many items as rules, and the embedded rules
    are a subsequence of the store's rules. *)
Lemma run_newNotificationRulesResponse
    (nrs : list Rule) (f : NotificationRuleFilter Tag) (opts : FindOptions) (s : S) :
  let r := run w (newNotificationRulesResponse nrs f opts) s in
  exists resp,
    result_of r = Done (Ok resp) /\
    map fst (label_fetches (trace_of r)) =
      map (fun nr => {| lmf_ResourceID := GetID nr;
                        lmf_ResourceType := NoResourceType |}) nrs /\
    map fst (task_lookups (trace_of r)) = map GetTaskID nrs /\
    map item_view (resp_NotificationRules resp) =
      omap (fun a => degraded a.1.1 a.1.2 a.2) (answers nrs (trace_of r)) /\
    length (resp_NotificationRules resp) <= length nrs /\
    map res_NotificationRule (resp_NotificationRules resp)
      `sublist_of` map ClearPrivateData nrs.
Proof.
  unfold newNotificationRulesResponse. cbv zeta.
  match goal with |- context [range ?b nrs ?a] => set (body := b); set (acc := a) end.
  assert (Hloop : forall nrs acc s,
    exists items tr s',
      run w (range body nrs acc) s =
        (Done {| resp_NotificationRules := resp_NotificationRules acc ++ items;
                 resp_Links := resp_Links acc |}, tr, s') /\
      map fst (label_fetches tr) =
        map (fun nr => {| lmf_ResourceID := GetID nr;
                          lmf_ResourceType := NoResourceType |}) nrs /\
      map fst (task_lookups tr) = map GetTaskID nrs /\
      map item_view items =
        omap (fun a => degraded a.1.1 a.1.2 a.2) (answers nrs tr)).
  { clear. induction nrs as [|nr nrs IH]; intros acc s.
    - exists [], [], s. simpl. rewrite app_nil_r. by destruct acc.
    - cbn [range]. rewrite run_bind. unfold body at 1.
      rewrite run_bind, run_invoke. cbn beta iota.
      set (a := w _ (FindResourceLabels _) s).
      rewrite run_bind.
      destruct (run_newNotificationRuleResponse nr (default [] (ok_value a.1)) a.2)
        as (r & -> & Hr).
      cbn beta iota zeta in *.
      destruct (w _ (FindTaskByID (GetTaskID nr)) a.2) as [[t|err] s2]; simpl in Hr.
      + destruct Hr as (res & -> & Hview). cbn [run app fst snd].
        destruct (IH {| resp_NotificationRules := resp_NotificationRules acc ++ [res];
                        resp_Links := resp_Links acc |} s2)
          as (items & tr & s' & -> & Hl & Ht' & Hitems).
        eexists (res :: items), _, s'. 
        split.
        { cbn [resp_NotificationRules resp_Links]. rewrite <- app_assoc. reflexivity. }
        unfold answers, label_fetches, task_lookups in *. simpl.
        split; [by f_equal|]. split; [by f_equal|].
        rewrite Hview. f_equal; [by destruct a.1 | exact Hitems].
      + subst r. cbn [run app fst snd].
        destruct (IH acc s2) as (items & tr & s' & -> & Hl & Ht' & Hitems).
        eexists items, _, s'. split; [reflexivity|].
        unfold answers, label_fetches, task_lookups in *. simpl.
        split; [by f_equal|]. split; [by f_equal|]. exact Hitems. }
  rewrite run_bind.
  destruct (Hloop nrs acc s) as (items & tr & s' & -> & Hl & Ht & Hitems).
  cbn beta iota zeta. cbn [run app]. rewrite app_nil_r.
  eexists. split; [reflexivity|].
  subst acc. cbn [result_of trace_of fst snd resp_NotificationRules app].
  assert (Hsub : map res_NotificationRule items `sublist_of` map ClearPrivateData nrs).
  { replace (map res_NotificationRule items)
      with (map (fun v : Rule * list Label * Task => v.1.1) (map item_view items))
      by (rewrite map_map; reflexivity).
    rewrite Hitems. apply degraded_sublist. }
  repeat split; try done.
  apply sublist_length in Hsub. by rewrite !length_map in Hsub.
Qed.

Lemma label_lookups_app tr1 tr2 :
  label_lookups (tr1 ++ tr2) = label_lookups tr1 ++ label_lookups tr2.
Proof. apply omap_app. Qed.

Lemma mapping_creations_app tr1 tr2 :
  mapping_creations (tr1 ++ tr2) = mapping_creations tr1 ++ mapping_creations tr2.
Proof. apply omap_app. Qed.

Lemma decodePostNotificationRuleRequest_pure r :
  (exists x, decodePostNotificationRuleRequest r = Ret x) \/
  (exists why, decodePostNotificationRuleRequest r = Panic why).
Proof.
  unfold decodePostNotificationRuleRequest.
  repeat case_match; eauto.
Qed.

Lemma run_mapNewNotificationRuleLabels nrc cands s :
  exists ls tr s',
    run w (mapNewNotificationRuleLabels nrc cands) s = (Done ls, tr, s') /\
    map fst (label_lookups tr) = omap parseID cands /\
    map fst (mapping_creations tr) = map (mapping_of nrc) (resolved tr) /\
    ls = attached tr /\
    length ls = length (filter (fun a => is_ok a.2) (mapping_creations tr)).
Proof.
  unfold mapNewNotificationRuleLabels.
  match goal with |- context [range ?b cands _] => set (body := b) end.
  assert (Hloop : forall cands acc s,
    exists ls tr s',
      run w (range body cands acc) s = (Done (acc ++ ls), tr, s') /\
      map fst (label_lookups tr) = omap parseID cands /\
      map fst (mapping_creations tr) = map (mapping_of nrc) (resolved tr) /\
      ls = attached tr /\
      length ls = length (filter (fun a => is_ok a.2) (mapping_creations tr))).
  { clear. induction cands as [|sid cands IH]; intros acc s.
    - exists [], [], s. simpl. by rewrite app_nil_r.
    - cbn [range]. rewrite run_bind. unfold body at 1.
      unfold DecodeFromString. cbn [omap list_omap].
      destruct (parseID sid) as [lid|] eqn:Hsid.
      + rewrite run_bind, run_invoke. cbn beta iota.
        destruct (w _ (FindLabelByID lid) s) as [[label|err] s1]; cbn [fst snd].
        * rewrite run_bind, run_invoke. cbn beta iota.
          destruct (w _ (CreateLabelMapping _) s1) as [[[]|err] s2]; cbn [fst snd run app].
          -- destruct (IH (acc ++ [label]) s2) as (ls & tr & s' & -> & Hl & Hm & Hls & Hlen).
             eexists (label :: ls), _, s'. split.
             { rewrite <- app_assoc. reflexivity. }
             unfold attached, resolved, label_lookups, mapping_creations in *.
             simpl. repeat split; try (f_equal; assumption).
          -- destruct (IH acc s2) as (ls & tr & s' & -> & Hl & Hm & Hls & Hlen).
             eexists ls, _, s'. split; [reflexivity|].
             unfold attached, resolved, label_lookups, mapping_creations in *.
             simpl. repeat split; try (f_equal; assumption).
        * cbn [run app].
          destruct (IH acc s1) as (ls & tr & s' & -> & Hl & Hm & Hls & Hlen).
          eexists ls, _, s'. split; [reflexivity|].
          unfold attached, resolved, label_lookups, mapping_creations in *.
          simpl. repeat split; try (f_equal; assumption).
      + cbn [run app].
        destruct (IH acc s) as (ls & tr & s' & -> & Hl & Hm & Hls & Hlen).
        eexists ls, _, s'. split; [reflexivity|].
        repeat split; assumption. }
  destruct (Hloop cands [] s) as (ls & tr & s' & Hrun & Hrest).
  exists ls, tr, s'. split; [exact Hrun | exact Hrest].
Qed.


Lemma label_events_frame pre tr post :
  label_lookups pre = [] -> mapping_creations pre = [] ->
  label_lookups post = [] -> mapping_creations post = [] ->
  attached (pre ++ tr ++ post) = attached tr /\
  mapping_creations (pre ++ tr ++ post) = mapping_creations tr.
Proof.
  intros H1 H2 H3 H4. unfold attached, resolved.
  rewrite !label_lookups_app, !mapping_creations_app, H1, H2, H3, H4.
  by rewrite !app_nil_r.
Qed.

Ltac ask :=
  rewrite run_bind, run_invoke; cbn beta iota;
  match goal with
  | |- context [w ?X ?c ?s] =>
      let x := fresh "x" in let s' := fresh "s" in
      destruct (w X c s) as [x s']; cbn [fst snd]
  end.


Lemma decodePutNotificationRuleRequest_pure r :
  (exists x, decodePutNotificationRuleRequest r = Ret x) \/
  (exists why, decodePutNotificationRuleRequest r = Panic why).
Proof.
  unfold decodePutNotificationRuleRequest.
  repeat case_match; eauto.
Qed.

(** Every single-item reply of a handler comes out of the composer. *)
Ltac compose :=
  rewrite run_bind;
  match goal with |- context [newNotificationRuleResponse ?n ?l] =>
    match goal with |- context [run w (newNotificationRuleResponse n l) ?s] =>
      let x := fresh "x" in let Hx := fresh "Hx" in
      destruct (run_newNotificationRuleResponse n l s) as (x & -> & Hx);
      cbn beta iota zeta in *;
      destruct (w _ (FindTaskByID (GetTaskID n)) s) as [[?t|?err] ?s];
      cbn [fst snd] in *;
      [ destruct Hx as (?res & -> & ?Hview) | subst x ]
    end
  end.


Lemma decodeGetNotificationRuleRequest_malformed r :
  param_id r = "" \/ parseID (param_id r) = None ->
  exists err, decodeGetNotificationRuleRequest r = Failed err /\ Code err = EInvalid.
Proof.
  unfold decodeGetNotificationRuleRequest, DecodeFromString.
  intros [Hid|Hid]; case_decide; try done; eauto.
  rewrite Hid. eauto.
Qed.

Lemma decodePatchNotificationRuleRequest_malformed r :
  param_id r = "" \/ parseID (param_id r) = None ->
  exists err, decodePatchNotificationRuleRequest r = Failed err /\ Code err = EInvalid.
Proof.
  unfold decodePatchNotificationRuleRequest, DecodeFromString.
  intros [Hid|Hid]; case_decide; try done; eauto.
  rewrite Hid. eauto.
Qed.

Lemma decodePutNotificationRuleRequest_malformed r :
  param_id r = "" \/ parseID (param_id r) = None ->
  exists err,
    decodePutNotificationRuleRequest r = Ret (Failed err) /\ Code err = EInvalid.
Proof.
  unfold decodePutNotificationRuleRequest, DecodeFromString.
  intros Hid. destruct (Body r) as [buf|err]; [|eauto].
  destruct (rule_UnmarshalJSON buf) as [nr|err]; [|eauto].
  destruct Hid as [Hid|Hid]; case_decide; try done; eauto.
  rewrite Hid. eauto.
Qed.

(** C4: a missing or undecodable path identifier is an invalid argument.
    Get, replace, patch, delete and query then hand an error of code
    [EInvalid] (so not [ENotFound]) to the error handler and call no
    collaborator at all, the store included. *)
Theorem malformed_path_id_is_invalid_argument (r : Request) (s : S) :
  param_id r = "" \/ parseID (param_id r) = None ->
  forall h : Request -> M reply,
    In h [handleGetNotificationRule; handlePutNotificationRule;
          handlePatchNotificationRule; handleDeleteNotificationRule;
          handleGetNotificationRuleQuery] ->
    exists err,
      run w (h r) s = (Done (HandleHTTPError err), [], s) /\
      Code err = EInvalid /\ Code err <> ENotFound /\
      filter is_store_call (trace_of (run w (h r) s)) = [].
Proof.
  intros Hid h Hin.
  assert (Hgoal : exists err,
    run w (h r) s = (Done (HandleHTTPError err), [], s) /\ Code err = EInvalid).
  { repeat (destruct Hin as [<-|Hin]); [| | | | |destruct Hin].
    - destruct (decodeGetNotificationRuleRequest_malformed r Hid) as (err & Hd & Hc).
      exists err. unfold handleGetNotificationRule. by rewrite Hd.
    - destruct (decodePutNotificationRuleRequest_malformed r Hid) as (err & Hd & Hc).
      exists err. unfold handlePutNotificationRule. by rewrite run_bind, Hd.
    - destruct (decodePatchNotificationRuleRequest_malformed r Hid) as (err & Hd & Hc).
      exists err. unfold handlePatchNotificationRule. by rewrite Hd.
    - destruct (decodeGetNotificationRuleRequest_malformed r Hid) as (err & Hd & Hc).
      exists err. unfold handleDeleteNotificationRule. by rewrite Hd.
    - destruct (decodeGetNotificationRuleRequest_malformed r Hid) as (err & Hd & Hc).
      exists err. unfold handleGetNotificationRuleQuery. by rewrite Hd. }
  destruct Hgoal as (err & Hrun & Hcode). exists err.
  rewrite Hrun, Hcode. by repeat split.
Qed.

Lemma composer_trace_is_quiet nrs f opts s :
  Forall quiet (trace_of (run w (newNotificationRulesResponse nrs f opts) s)).
Proof.
  unfold newNotificationRulesResponse. cbv zeta.
  match goal with |- context [range ?b nrs ?a] => set (body := b); generalize a end.
  intros acc. rewrite run_bind.
  assert (Hloop : forall nrs acc s,
    exists acc' tr s',
      run w (range body nrs acc) s = (Done acc', tr, s') /\ Forall quiet tr).
  { clear. induction nrs as [|nr nrs IH]; intros acc s.
    - exists acc, [], s. by split.
    - cbn [range]. rewrite run_bind. unfold body at 1.
      rewrite run_bind, run_invoke. cbn beta iota.
      set (a := w _ (FindResourceLabels _) s).
      rewrite run_bind.
      destruct (run_newNotificationRuleResponse nr (default [] (ok_value a.1)) a.2)
        as (r & -> & Hr).
      cbn beta iota zeta in *.
      destruct (w _ (FindTaskByID (GetTaskID nr)) a.2) as [[t|err] s2]; simpl in Hr.
      + destruct Hr as (res & -> & Hview). cbn [run app fst snd].
        match goal with |- context [range body nrs ?acc'] =>
          destruct (IH acc' s2) as (acc2 & tr & s' & -> & Hq) end.
        eexists _, _, _. split; [reflexivity|].
        repeat constructor; assumption.
      + subst r. cbn [run app fst snd].
        destruct (IH acc s2) as (acc2 & tr & s' & -> & Hq).
        eexists _, _, _. split; [reflexivity|].
        repeat constructor; assumption. }
  destruct (Hloop nrs acc s) as (acc' & tr & s' & -> & Hq).
  cbn [run trace_of fst snd]. by rewrite app_nil_r.
Qed.

Lemma quiet_no_GetAuthorizer tr :
  Forall quiet tr -> filter is_GetAuthorizer tr = [].
Proof.
  induction 1 as [|e tr [_ He] _ IH]; [done|].
  rewrite filter_cons, He. simpl. exact IH.
Qed.

Lemma decodeNotificationRuleFilter_pure r :
  (exists x, decodeNotificationRuleFilter r = Ret x) \/
  (exists why, decodeNotificationRuleFilter r = Panic why).
Proof.
  unfold decodeNotificationRuleFilter. cbv zeta.
  destruct (decodeFindOptions r); [|eauto].
  repeat case_decide; cbn [bind]; repeat case_match; eauto.
Qed.



(** C5: a list request with no [orgID] but a non-empty [org] parameter,
    whose paging options decode, does not get its filter: the decoder
    panics on the nil [Organization] pointer, and so does the list
    handler, before any collaborator is called. *)
Theorem org_name_selector_dereferences_nil (r : Request) (opts : FindOptions) :
  decodeFindOptions r = Ok opts ->
  Get (URL_Query r) "orgID" = "" ->
  Get (URL_Query r) "org" <> "" ->
  decodeNotificationRuleFilter r = Panic nil_dereference /\
  forall s, run w (handleGetNotificationRules r) s = (Panicked nil_dereference, [], s).
Proof.
  intros Hopts HorgID Horg.
  assert (Hd : decodeNotificationRuleFilter r = Panic nil_dereference).
  { unfold decodeNotificationRuleFilter. cbv zeta. rewrite Hopts.
    rewrite !decide_True by done. rewrite decide_False by done.
    by destruct (decodeUserResourceMappingFilter r NotificationRuleResourceType). }
  split; [exact Hd|]. intros s.
  unfold handleGetNotificationRules. by rewrite run_bind, Hd.
Qed.


Lemma MarshalJSON_pure res :
  (exists x, MarshalJSON res = Ret x) \/ (exists why, MarshalJSON res = Panic why).
Proof. unfold MarshalJSON. repeat case_match; eauto. Qed.

Lemma Marshal_items_length rs items :
  Marshal_items rs = Ret (Ok items) -> length items = length rs.
Proof.
  revert items. induction rs as [|res rs IH]; intros items; cbn [Marshal_items].
  - by intros [= <-].
  - destruct (MarshalJSON_pure res) as [[[b|err] ->]|[why ->]]; cbn [bind]; try done.
    destruct (Marshal_items rs) as [[bs|err]|why|X c k]; cbn [bind]; try done.
    intros [= <-]. cbn [length]. by rewrite (IH bs).
Qed.

(** C8: the body of a list response.  A list request that is answered
    with a body is answered with status 200 and a collection wrapper.  Its
    encoding is an object of exactly two members, [notificationRules] and
    [links]: the item array, one entry per item, is under
    [notificationRules]; there is no member [items]. *)
Theorem list_body_is_a_notificationRules_wrapper :
  (forall (r : Request) (s : S) status b,
     result_of (run w (handleGetNotificationRules r) s) =
       Done (EncodeResponse status b) ->
     status = StatusOK /\ exists resp, b = RulesBody resp) /\
  (forall (resp : notificationRulesResponse) (j : json),
     Marshal_notificationRulesResponse resp = Ret (Ok j) ->
     member_names j = ["notificationRules"; "links"] /\
     (exists items,
        member "notificationRules" j = Some (JArray items) /\
        length items = length (resp_NotificationRules resp)) /\
     member "links" j = Some (Marshal_PagingLinks (resp_Links resp)) /\
     member "items" j = None).
Proof.
  split.
  - intros r s status b. unfold handleGetNotificationRules. rewrite run_bind.
    destruct (decodeNotificationRuleFilter_pure r) as [[x ->]|[why ->]]; [|done].
    cbn [run]. destruct x as [d|err]; [|done].
    ask. destruct x as [found|err]; [|done].
    rewrite run_bind.
    destruct (run w (newNotificationRulesResponse found.1 d.1 d.2) s0)
      as [[[[resp|err]|why] tr] s1]; cbn [run result_of fst]; try done.
    intros [= <- <-]. eauto.
  - intros resp j. unfold Marshal_notificationRulesResponse.
    destruct (Marshal_items (resp_NotificationRules resp))
      as [[items|err]|why|X c k] eqn:Hitems; cbn [bind]; try done.
    intros [= <-]. repeat split.
    exists items. split; [reflexivity|]. by apply Marshal_items_length.
Qed.

(** C6: the resource type of label mappings.  The three label routes of a
    rule are built over a backend of resource type
    [TelegrafsResourceType], not [NotificationRuleResourceType]; the member
    and owner routes are built over backends of the rule's resource type,
    and every mapping that create-time attachment asks for carries the
    rule's resource type. *)
Theorem label_routes_are_tagged_as_telegrafs :
  (forall rt b,
     In rt NewNotificationRuleHandler ->
     route_handler rt = newGetLabelsHandler b \/
     route_handler rt = newPostLabelHandler b \/
     route_handler rt = newDeleteLabelHandler b ->
     lb_ResourceType b = TelegrafsResourceType /\
     lb_ResourceType b <> NotificationRuleResourceType) /\
  In (HandlerFunc "POST" notificationRulesIDLabelsPath
        (newPostLabelHandler {| lb_ResourceType := TelegrafsResourceType |}))
     NewNotificationRuleHandler /\
  (forall rt b,
     In rt NewNotificationRuleHandler ->
     route_handler rt = newPostMemberHandler b \/
     route_handler rt = newGetMembersHandler b \/
     route_handler rt = newDeleteMemberHandler b ->
     mb_ResourceType b = NotificationRuleResourceType) /\
  (forall nrc cands (s : S),
     Forall (fun a => lm_ResourceType a.1 = NotificationRuleResourceType)
       (mapping_creations
          (trace_of (run w (mapNewNotificationRuleLabels nrc cands) s)))).
Proof.
  split; [|split; [|split]].
  - intros rt b Hin Hh. unfold NewNotificationRuleHandler in Hin. cbv zeta in Hin.
    repeat (destruct Hin as [<-|Hin]); try destruct Hin;
      cbn [route_handler HandlerFunc] in Hh;
      destruct Hh as [Hh|[Hh|Hh]]; try discriminate Hh;
      injection Hh as <-; by split.
  - unfold NewNotificationRuleHandler. cbv zeta. cbn [In]. tauto.
  - intros rt b Hin Hh. unfold NewNotificationRuleHandler in Hin. cbv zeta in Hin.
    repeat (destruct Hin as [<-|Hin]); try destruct Hin;
      cbn [route_handler HandlerFunc] in Hh;
      destruct Hh as [Hh|[Hh|Hh]]; try discriminate Hh;
      by injection Hh as <-.
  - intros nrc cands s.
    destruct (run_mapNewNotificationRuleLabels nrc cands s)
      as (ls & tr & s' & -> & _ & Hm & _).
    cbn [trace_of fst snd].
    assert (Hall : Forall (fun m => lm_ResourceType m = NotificationRuleResourceType)
                     (map fst (mapping_creations tr))).
    { rewrite Hm. clear. induction (resolved tr); by constructor. }
    revert Hall. generalize (mapping_creations tr).
    induction l as [|a l IH]; [constructor|].
    cbn [map]. intros Hall. apply Forall_cons in Hall as [Ha Hl].
    constructor; [exact Ha|by apply IH].
Qed.
End Proofs.

(** ** The remote store adapter *)
Section AdapterProofs.
Import NotificationRuleService.
Context `{Platform} {S : Type} (w : world wire S).

(** C7: the remote adapter's list, replace, patch and delete are stubs.
    For every input they return at once, with an empty list and a zero
    count, a nil rule, a nil rule, and nothing, each with a nil error and
    without a wire call; create and find-by-ID make one wire call each. *)
Theorem remote_adapter_stubs_make_no_wire_call
    (filter : NotificationRuleFilter Tag) (opt : list FindOptions)
    (id userID : ID) (nr : NotificationRuleCreate)
    (upd : NotificationRuleUpdate) (s : S) :
  run w (FindNotificationRules filter opt) s = (Done ([], 0%Z, None), [], s) /\
  run w (UpdateNotificationRule id nr userID) s = (Done (None, None), [], s) /\
  run w (PatchNotificationRule id upd) s = (Done (None, None), [], s) /\
  run w (DeleteNotificationRule id) s = (Done None, [], s) /\
  length (trace_of (run w (CreateNotificationRule nr userID) s)) = 1 /\
  length (trace_of (run w (FindNotificationRuleByID id) s)) = 1.
Proof.
  repeat split.
  - unfold CreateNotificationRule. rewrite run_bind, run_invoke. reflexivity.
  - unfold FindNotificationRuleByID. rewrite run_bind, run_invoke. reflexivity.
Qed.

End AdapterProofs.

(** ** The handlers at work on the small platform *)
Section Examples.
Import Fixture.




(** [zz] is no identifier: delete refuses it without asking the store. *)
Lemma delete_with_malformed_id_is_refused :
  let r := request "zz" [] "" in
  (param_id r = "" \/ parseID (param_id r) = None) /\
  exists err,
    run collaborators (handleDeleteNotificationRule r) [] =
      (Done (HandleHTTPError err), [], []) /\
    Code err = EInvalid /\ Code err <> ENotFound /\
    filter is_store_call
      (trace_of (run collaborators (handleDeleteNotificationRule r) [])) = [].
Proof.
  cbv zeta. split; [right; reflexivity|].
  apply (malformed_path_id_is_invalid_argument collaborators (request "zz" [] "") []).
  - right. reflexivity.
  - cbn [In]. tauto.
Defined.

(** [GET /api/v2/notificationRules?org=acme] panics in the decoder. *)
Lemma list_by_org_name_panics :
  let r := request "" [("org", "acme")] "" in
  decodeNotificationRuleFilter r = Panic nil_dereference /\
  run collaborators (handleGetNotificationRules r) [] =
    (Panicked nil_dereference, [], []).
Proof.
  cbv zeta.
  destruct (org_name_selector_dereferences_nil collaborators
              (request "" [("org", "acme")] "") ()) as [Hdecode Hhandle];
    [reflexivity|reflexivity|discriminate|].
  split; [exact Hdecode|apply Hhandle].
Defined.

(** The encoded list body of the small platform. *)
Lemma list_body_of_three_rules :
  exists resp j,
    result_of (run collaborators (handleGetNotificationRules (request "" [] "")) []) =
      Done (EncodeResponse StatusOK (RulesBody resp)) /\
    Marshal_notificationRulesResponse resp = Ret (Ok j) /\
    member_names j = ["notificationRules"; "links"] /\
    member "items" j = None.
Proof.
  eexists. eexists. split; [vm_compute; reflexivity|].
  match goal with |- ?P /\ _ => assert (Hm : P) by (vm_compute; reflexivity) end.
  split; [exact Hm|].
  destruct (proj2 (list_body_is_a_notificationRules_wrapper collaborators) _ _ Hm)
    as (Hnames & _ & _ & Hitems).
  split; [exact Hnames|exact Hitems].
Defined.

(** The list body of the small platform has no member named [items]: the
    item array is the member [notificationRules]. *)
Lemma list_body_has_no_items_member :
  exists resp j items,
    result_of (run collaborators (handleGetNotificationRules (request "" [] "")) []) =
      Done (EncodeResponse StatusOK (RulesBody resp)) /\
    Marshal_notificationRulesResponse resp = Ret (Ok j) /\
    member "items" j = None /\
    member "notificationRules" j = Some (JArray items) /\
    length items = 2.
Proof.
  do 3 eexists. split; [vm_compute; reflexivity|].
  split; [vm_compute; reflexivity|].
  split; [reflexivity|]. split; reflexivity.
Qed.



End Examples.
